(** * factory-m8: the Sentinel protocol and the FK resolution engine

    Shallow embedding of [src/lib.rs] (the [Sentinel] trait, its
    implementations for the integer types, [String] and [Option<T>], the
    [FactoryResult] type) and of the resolution engine ([build_with_fks],
    generated by the derive crate) that [FactoryCreate::create] calls. *)

From Stdlib Require Import ZArith Bool List String Lia.
From Stdlib Require Import Eqdep_dec.
Import ListNotations.
Open Scope Z_scope.

(* ========================================================================= *)
(** ** Fixed-width integers *)

(** A Rust integer of range [lo, hi): its value as [Z] together with the
    (boolean, hence proof-irrelevant) range check. *)
Record int_of (lo hi : Z) := mk_int {
  ival : Z;
  ibound : (lo <=? ival) && (ival <? hi) = true
}.
Arguments mk_int {lo hi} _ _.
Arguments ival {lo hi} _.
Arguments ibound {lo hi} _.

Definition i64 := int_of (-2^63) (2^63).
Definition i32 := int_of (-2^31) (2^31).
Definition i16 := int_of (-2^15) (2^15).
Definition u64 := int_of 0 (2^64).
Definition u32 := int_of 0 (2^32).

(** Wrap-around conversion of a mathematical integer into the range
    [lo, hi) (the [as] cast of Rust). *)
Definition wrap_val (lo hi z : Z) : Z := lo + (z - lo) mod (hi - lo).

Lemma wrap_val_bound (lo hi z : Z) :
  (lo <? hi) = true -> (lo <=? wrap_val lo hi z) && (wrap_val lo hi z <? hi) = true.
Proof.
  intros H. apply Z.ltb_lt in H. unfold wrap_val.
  pose proof (Z.mod_pos_bound (z - lo) (hi - lo) ltac:(lia)).
  apply andb_true_intro; split; [apply Z.leb_le | apply Z.ltb_lt]; lia.
Qed.

Definition wrap {lo hi : Z} (H : (lo <? hi) = true) (z : Z) : int_of lo hi :=
  mk_int (wrap_val lo hi z) (wrap_val_bound lo hi z H).

Definition i64_of_Z : Z -> i64 := @wrap (-2^63) (2^63) eq_refl.

Definition i64_zero : i64 := @mk_int (-2^63) (2^63) 0 eq_refl.
Definition i32_zero : i32 := @mk_int (-2^31) (2^31) 0 eq_refl.
Definition i16_zero : i16 := @mk_int (-2^15) (2^15) 0 eq_refl.
Definition u64_zero : u64 := @mk_int 0 (2^64) 0 eq_refl.
Definition u32_zero : u32 := @mk_int 0 (2^32) 0 eq_refl.

Lemma int_of_eq {lo hi : Z} (a b : int_of lo hi) : ival a = ival b -> a = b.
Proof.
  destruct a as [va pa], b as [vb pb]; simpl. intros ->.
  f_equal. apply UIP_dec, bool_dec.
Qed.

(* ========================================================================= *)
(** ** The Sentinel trait *)

(** [pub trait Sentinel: Clone { fn sentinel() -> Self;
    fn is_sentinel(&self) -> bool; }].  The trait carries no law: an
    implementation is just the two functions. ([Clone] is not modelled.) *)
Class Sentinel (A : Type) := {
  sentinel : A;
  is_sentinel : A -> bool
}.
Arguments sentinel : simpl never.

(** [impl Sentinel for i64 { fn sentinel() -> Self { 0 }
    fn is_sentinel(&self) -> bool { *self == 0 } }], and the same for
    [i32], [i16], [u64], [u32]. *)
#[global] Instance Sentinel_i64 : Sentinel i64 :=
  { sentinel := i64_zero; is_sentinel x := ival x =? 0 }.
#[global] Instance Sentinel_i32 : Sentinel i32 :=
  { sentinel := i32_zero; is_sentinel x := ival x =? 0 }.
#[global] Instance Sentinel_i16 : Sentinel i16 :=
  { sentinel := i16_zero; is_sentinel x := ival x =? 0 }.
#[global] Instance Sentinel_u64 : Sentinel u64 :=
  { sentinel := u64_zero; is_sentinel x := ival x =? 0 }.
#[global] Instance Sentinel_u32 : Sentinel u32 :=
  { sentinel := u32_zero; is_sentinel x := ival x =? 0 }.

(** [String::is_empty]. *)
Definition is_empty (s : string) : bool :=
  match s with EmptyString => true | String _ _ => false end.

(** [impl Sentinel for String { fn sentinel() -> Self { String::new() }
    fn is_sentinel(&self) -> bool { self.is_empty() } }] *)
#[global] Instance Sentinel_String : Sentinel string :=
  { sentinel := EmptyString; is_sentinel := is_empty }.

(** [impl<T: Sentinel> Sentinel for Option<T>]: [None] is the sentinel,
    [Some(v)] is a sentinel when [v] is. *)
#[global] Instance Sentinel_Option {T : Type} `{Sentinel T} : Sentinel (option T) :=
  { sentinel := None;
    is_sentinel o := match o with None => true | Some v => is_sentinel v end }.

(** [Default::default()] of the standard library for the same types. *)
Class Default (A : Type) := default : A.
#[global] Instance Default_i64 : Default i64 := i64_zero.
#[global] Instance Default_i32 : Default i32 := i32_zero.
#[global] Instance Default_i16 : Default i16 := i16_zero.
#[global] Instance Default_u64 : Default u64 := u64_zero.
#[global] Instance Default_u32 : Default u32 := u32_zero.
#[global] Instance Default_String : Default string := EmptyString.
#[global] Instance Default_Option {T : Type} : Default (option T) := None.

(** [is_sentinel(&self)] may also read and write interior-mutable cells of
    the value ([Cell], atomics): an implementation seen with the cells'
    contents as an explicit state [St] threaded through each call. *)
Record StatefulSentinel (St A : Type) := mk_stateful {
  st_sentinel : A;
  st_is_sentinel : A -> St -> bool * St
}.
Arguments mk_stateful {St A} _ _.
Arguments st_sentinel {St A} _.
Arguments st_is_sentinel {St A} _ _ _.

(** An implementation without interior mutability (every implementation of
    the crate): [is_sentinel] reads only the value. *)
Definition pure_impl {St A : Type} (I : Sentinel A) : StatefulSentinel St A :=
  mk_stateful (@sentinel A I) (fun v s => (@is_sentinel A I v, s)).

(** [impl<T: Sentinel> Sentinel for Option<T>] over an implementation of [T]
    that may use interior mutability: [None => true],
    [Some(v) => v.is_sentinel()]. *)
Definition option_impl {St A : Type} (I : StatefulSentinel St A)
  : StatefulSentinel St (option A) :=
  mk_stateful None (fun o s => match o with
                               | None => (true, s)
                               | Some v => st_is_sentinel I v s
                               end).

(** [n] successive calls [v.is_sentinel()] on the same value. *)
Fixpoint st_calls {St A : Type} (I : StatefulSentinel St A) (v : A) (n : nat) (s : St)
  : list bool * St :=
  match n with
  | O => ([], s)
  | S k =>
      let (b, s1) := st_is_sentinel I v s in
      let (bs, s2) := st_calls I v k s1 in
      (b :: bs, s2)
  end.

(** An implementation the compiler accepts, with interior mutability:
    [struct Flaky(Cell<u32>)] and [fn is_sentinel(&self) -> bool
    { let n = self.0.get(); self.0.set(n.wrapping_add(1)); n % 2 == 0 }];
    the state is the cell's contents. *)
Definition flaky_impl : StatefulSentinel Z unit :=
  mk_stateful tt (fun _ n => (n mod 2 =? 0, (n + 1) mod 2^32)).

(** The [TestId] type of the crate's tests: [TestId(i64)] with sentinel
    [TestId(0)]. *)
Record TestId := mkTestId { test_id : i64 }.
#[global] Instance Sentinel_TestId : Sentinel TestId :=
  { sentinel := mkTestId i64_zero; is_sentinel t := ival (test_id t) =? 0 }.

(* ========================================================================= *)
(** ** Factories and the resolution engine *)

(** [pub type FactoryResult<T> = Result<T, Box<dyn Error + Send + Sync>>]:
    in the engine below an outcome is [inl err] or [inr value], paired with
    the backend state it leaves behind (rows already inserted are kept). *)

(** Modelled from the spec: the foreign-key field annotation
    [#[fk(Entity, "column", ChildFactory)]] / [#[fk(..., no_default)]]
    produced by the derive crate (not part of [src/]): child entity, key
    column on the child, child factory, opt-out flag. *)
Record fk_ann := mk_fk {
  fk_entity : string;
  fk_column : string;
  fk_factory : string;
  fk_no_default : bool
}.

Section Engine.

(** [K] is the key type of the factory fields, with its [Sentinel]
    implementation. *)
Context {K : Type} `{SK : Sentinel K}.

(** One field of a factory instance: its name, its value and its optional
    foreign-key annotation. *)
Record field := mk_field { fname : string; fval : K; fk : option fk_ann }.

(** A factory instance: the entity it creates and its fields in declaration
    order. *)
Record factory := mk_factory { fentity : string; ffields : list field }.

(** The backend: persisted rows [Row] read by column, the backend state
    [DB] threaded through every call (the shared pool), its error type
    [Err], the backend-specific insert of each entity, and the default
    instance ([ChildFactory::default()]) of each factory type. *)
Variables (Row DB Err : Type).
Variable get_column : Row -> string -> K.
Variable insert : string -> list field -> DB -> DB * (Err + Row).
Variable default_factory : string -> factory.

(** A computation on the backend: [None] when it does not finish within the
    evaluation bound of the model (see [create]). *)
Definition M (A : Type) : Type := DB -> option (DB * (Err + A)).

Definition ret {A : Type} (a : A) : M A := fun db => Some (db, inr a).

(** The [?] operator: the first error aborts the chain. *)
Definition bind {A B : Type} (m : M A) (k : A -> M B) : M B := fun db =>
  match m db with
  | None => None
  | Some (db', inl e) => Some (db', inl e)
  | Some (db', inr a) => k a db'
  end.

Local Notation "x <- m ;; k" := (bind m (fun x => k))
  (at level 61, m at next level, right associativity).

Definition insert_m (e : string) (fs : list field) : M Row :=
  fun db => Some (insert e fs db).

Definition set_fval (f : field) (k : K) : field := mk_field (fname f) k (fk f).

(** Modelled from the spec (section 4.3, steps 1a-1d): the resolution of one
    field by the code the derive crate generates for [build_with_fks]. *)
Definition resolve_field (create_child : factory -> M Row) (f : field) : M field :=
  match fk f with
  | None => ret f
  | Some a =>
      if fk_no_default a then ret f
      else if is_sentinel (fval f) then
        r <- create_child (default_factory (fk_factory a)) ;;
        ret (set_fval f (get_column r (fk_column a)))
      else ret f
  end.

(** Modelled from the spec (section 4.3, step 2): fields are resolved in
    declaration order, one after the other. *)
Fixpoint resolve_fields (cc : factory -> M Row) (fs : list field) : M (list field) :=
  match fs with
  | [] => ret []
  | f :: rest =>
      f' <- resolve_field cc f ;;
      rest' <- resolve_fields cc rest ;;
      ret (f' :: rest')
  end.

(** [FactoryCreate::create]: [self.build_with_fks(pool).await?], then the
    INSERT (section 4.2 and the trait's doc comment).  [fuel] only bounds
    the evaluation of the model ([None] = still running); the engine
    itself has no depth limit (section 9, open question). *)
Fixpoint create (fuel : nat) (f : factory) : M Row :=
  match fuel with
  | O => fun _ => None
  | S n =>
      fs' <- resolve_fields (create n) (ffields f) ;;
      insert_m (fentity f) fs'
  end.

(** [build_with_fks]: the fully resolved factory instance. *)
Definition build_with_fks (fuel : nat) (f : factory) : M factory :=
  fs' <- resolve_fields (create fuel) (ffields f) ;;
  ret (mk_factory (fentity f) fs').

(** The field triggers auto-creation: a foreign key, without [no_default],
    holding its sentinel (the test [resolve_field] makes). *)
Definition needs_default (f : field) : bool :=
  match fk f with
  | None => false
  | Some a => negb (fk_no_default a) && is_sentinel (fval f)
  end.

(** The default factory of [x] has a foreign-key field left at its
    sentinel, without [no_default], whose child factory is [y], and no
    field declared before it needs auto-creation. *)
Definition cycle_edge (x y : string) : Prop :=
  exists pre f a post,
    ffields (default_factory x) = pre ++ f :: post /\
    forallb (fun g => negb (needs_default g)) pre = true /\
    fk f = Some a /\ fk_no_default a = false /\ is_sentinel (fval f) = true /\
    fk_factory a = y.

(** Monad laws, pointwise in the backend state. *)
Lemma bind_ret_l {A B : Type} (a : A) (k : A -> M B) db :
  bind (ret a) k db = k a db.
Proof. reflexivity. Qed.

Lemma bind_assoc {A B C : Type} (m : M A) (k : A -> M B) (h : B -> M C) db :
  bind (bind m k) h db = bind m (fun a => bind (k a) h) db.
Proof.
  unfold bind. destruct (m db) as [[db' [e | a]] |]; reflexivity.
Qed.

Lemma bind_ext {A B : Type} (m : M A) (k k' : A -> M B) db :
  (forall a d, k a d = k' a d) -> bind m k db = bind m k' db.
Proof.
  intros Hk. unfold bind. destruct (m db) as [[db' [e | a]] |]; auto.
Qed.

Lemma resolve_fields_app cc (l1 l2 : list field) (k : list field -> M Row) db :
  bind (resolve_fields cc (l1 ++ l2)) k db =
  (x <- resolve_fields cc l1 ;; y <- resolve_fields cc l2 ;; k (x ++ y)) db.
Proof.
  revert k db. induction l1 as [| f l1 IH]; intros k db; simpl.
  - unfold bind at 2. simpl. apply bind_ext. reflexivity.
  - rewrite !bind_assoc. apply bind_ext. intros f' d.
    rewrite (bind_assoc _ _ _ d), IH, (bind_assoc _ _ _ d).
    apply bind_ext. intros x d'. rewrite bind_ret_l. reflexivity.
Qed.

End Engine.

Arguments ret {DB Err A} a _.
Arguments bind {DB Err A B} m k _.
Arguments bind_ret_l {DB Err A B} a k db.
Arguments bind_assoc {DB Err A B C} m k h db.
Arguments bind_ext {DB Err A B} m k k' db _.

Local Notation "x <- m ;; k" := (bind m (fun x => k))
  (at level 61, m at next level, right associativity).

(* ========================================================================= *)
(** ** A concrete backend, for evaluating the engine *)

Module Demo.

(** Rows are column/value lists; the database is the list of inserted rows
    with their table; the insert assigns the next id, or fails when the
    table is full. *)
Definition Row : Type := list (string * i64).
Definition DB : Type := list (string * Row).
Definition Err : Type := string.

Definition get_column (r : Row) (c : string) : i64 :=
  match find (fun p => String.eqb (fst p) c) r with
  | Some (_, v) => v
  | None => i64_zero
  end.

Definition insert (e : string) (fs : list (@field i64)) (db : DB) : DB * (Err + Row) :=
  if Z.of_nat (List.length db) <? 2^62 then
    let row := ("id"%string, i64_of_Z (Z.of_nat (List.length db) + 1))
               :: map (fun f => (fname f, fval f))
                      (filter (fun f => negb (String.eqb (fname f) "id")) fs) in
    (db ++ [(e, row)], inr row)
  else (db, inl "table full"%string).

Definition tenant_fk : fk_ann := mk_fk "Tenant" "id" "TenantFactory" false.

Definition user_pk : @field i64 := mk_field "id" i64_zero None.
Definition tenant_field : @field i64 := mk_field "tenant_id" i64_zero (Some tenant_fk).
Definition tenant_field7 : @field i64 :=
  mk_field "tenant_id" (i64_of_Z 7) (Some tenant_fk).

(** [UserFactory { id, #[fk(Tenant, "id", TenantFactory)] tenant_id }] and
    [TenantFactory { id }]. *)
Definition schema (x : string) : @factory i64 :=
  if String.eqb x "UserFactory" then mk_factory "User" [user_pk; tenant_field]
  else mk_factory "Tenant" [mk_field "id" i64_zero None].

(** Two factories [A { id, b_id }] and [B { id, a_id }] whose defaults
    reference each other, no [no_default]. *)
Definition cyclic (x : string) : @factory i64 :=
  if String.eqb x "AFactory" then
    mk_factory "A" [mk_field "id" i64_zero None;
                    mk_field "b_id" i64_zero (Some (mk_fk "B" "id" "BFactory" false))]
  else
    mk_factory "B" [mk_field "id" i64_zero None;
                    mk_field "a_id" i64_zero (Some (mk_fk "A" "id" "AFactory" false))].

Definition run (fuel : nat) (f : @factory i64) (db : DB) :=
  create Row DB Err get_column insert schema fuel f db.

Definition resolve (fuel : nat) (fs : list (@field i64)) :=
  resolve_fields Row DB Err get_column schema (create Row DB Err get_column insert schema fuel) fs.

Definition run_cyclic (fuel : nat) (f : @factory i64) (db : DB) :=
  create Row DB Err get_column insert cyclic fuel f db.

(** [#[fk(Tenant, "id", TenantFactory, no_default)] tenant_id], left at the
    sentinel. *)
Definition tenant_field_opt : @field i64 :=
  mk_field "tenant_id" i64_zero (Some (mk_fk "Tenant" "id" "TenantFactory" true)).

(** A backend that rejects every tenant row (a failing constraint). *)
Definition insert_no_tenant (e : string) (fs : list (@field i64)) (db : DB)
  : DB * (Err + Row) :=
  if String.eqb e "Tenant" then (db, inl "tenant insert rejected"%string)
  else insert e fs db.

Definition run_no_tenant (fuel : nat) (f : @factory i64) (db : DB) :=
  create Row DB Err get_column insert_no_tenant schema fuel f db.

Definition resolve_no_tenant (fuel : nat) (fs : list (@field i64)) :=
  resolve_fields Row DB Err get_column schema
    (create Row DB Err get_column insert_no_tenant schema fuel) fs.

End Demo.

(* ========================================================================= *)
(** ** The Sentinel protocol: theorems *)

Example test_sentinel_i64 :
  is_sentinel i64_zero = true /\ is_sentinel (i64_of_Z 1) = false
  /\ is_sentinel (i64_of_Z (-1)) = false.
Proof. vm_compute. auto. Qed.

Example test_sentinel_option_some_sentinel :
  is_sentinel (Some i64_zero) = true /\ is_sentinel (Some (i64_of_Z 1)) = false.
Proof. vm_compute. auto. Qed.

Lemma int_is_sentinel_iff {lo hi : Z} (H0 : (lo <=? 0) && (0 <? hi) = true)
  (v : int_of lo hi) : (ival v =? 0) = true <-> v = mk_int 0 H0.
Proof.
  rewrite Z.eqb_eq. split.
  - intros Hv. apply int_of_eq. exact Hv.
  - intros ->. reflexivity.
Qed.

Lemma int_not_sentinel {lo hi : Z} (H0 : (lo <=? 0) && (0 <? hi) = true)
  (v : int_of lo hi) : v <> mk_int 0 H0 -> (ival v =? 0) = false.
Proof.
  intros Hne. apply not_true_is_false. intros Hv.
  apply Hne, (int_is_sentinel_iff H0), Hv.
Qed.

(** An implementation of the trait that the compiler accepts but whose
    sentinel does not recognise itself:
    [impl Sentinel for Flag { fn sentinel() -> Self { Flag(true) }
     fn is_sentinel(&self) -> bool { !self.0 } }]. *)
Definition Sentinel_inverted_flag : Sentinel bool :=
  {| sentinel := true; is_sentinel b := negb b |}.

(** C1 (counterexample): the trait states no law, so "is_sentinel(sentinel())
    is true for any implementer" fails for the implementation above. *)
Lemma any_implementer_self_recognition_fails :
  ~ (forall (A : Type) (S : Sentinel A), @is_sentinel A S (@sentinel A S) = true).
Proof.
  intros H. specialize (H bool Sentinel_inverted_flag). discriminate H.
Qed.

(** C1 (amended): for every implementation the crate provides (i64, i32,
    i16, u64, u32, String, and Option<T> over any T), is_sentinel(sentinel())
    is true. *)
Theorem provided_sentinels_recognise_themselves :
  is_sentinel (sentinel : i64) = true /\ is_sentinel (sentinel : i32) = true /\
  is_sentinel (sentinel : i16) = true /\ is_sentinel (sentinel : u64) = true /\
  is_sentinel (sentinel : u32) = true /\ is_sentinel (sentinel : string) = true /\
  (forall (T : Type) (ST : Sentinel T), is_sentinel (sentinel : option T) = true).
Proof. repeat split. Qed.

(** C2: for Option<T> over any sentinel-aware T, is_sentinel(None) is true
    and is_sentinel(Some(x)) equals is_sentinel(x). *)
Theorem option_sentinel_spec (T : Type) `{ST : Sentinel T} :
  is_sentinel (None : option T) = true /\
  (forall x : T, is_sentinel (Some x) = is_sentinel x).
Proof. split; reflexivity. Qed.

(** C3 (counterexample): Some(0) is a sentinel of Option<i64> but differs
    from Option's sentinel value None. *)
Lemma option_has_several_sentinels :
  ~ (forall v : option i64, is_sentinel v = true <-> v = sentinel).
Proof.
  intros H. destruct (H (Some i64_zero)) as [Hs _].
  discriminate (Hs eq_refl).
Qed.

(** C3 (amended): for the integer types and String, is_sentinel(v) holds
    exactly when v is sentinel(); for Option<T>, is_sentinel(v) holds
    exactly when v is None or v is Some(x) with is_sentinel(x). *)
Theorem sentinel_recognition_exact :
  (forall v : i64, is_sentinel v = true <-> v = sentinel) /\
  (forall v : i32, is_sentinel v = true <-> v = sentinel) /\
  (forall v : i16, is_sentinel v = true <-> v = sentinel) /\
  (forall v : u64, is_sentinel v = true <-> v = sentinel) /\
  (forall v : u32, is_sentinel v = true <-> v = sentinel) /\
  (forall v : string, is_sentinel v = true <-> v = sentinel) /\
  (forall (T : Type) (ST : Sentinel T) (v : option T),
     is_sentinel v = true <-> v = None \/ exists x, v = Some x /\ is_sentinel x = true).
Proof.
  split; [intros v; apply int_is_sentinel_iff |].
  split; [intros v; apply int_is_sentinel_iff |].
  split; [intros v; apply int_is_sentinel_iff |].
  split; [intros v; apply int_is_sentinel_iff |].
  split; [intros v; apply int_is_sentinel_iff |].
  split.
  - intros v. destruct v; simpl; split; intros H; solve [reflexivity | discriminate H].
  - intros T ST v. split.
    + destruct v as [x |]; simpl; intros Hv; [right; exists x; auto | left; reflexivity].
    + intros [-> | [x [-> Hx]]]; simpl; auto.
Qed.

(** C4: for i64, i32, i16, u64 and u32, is_sentinel(0) is true and
    is_sentinel(n) is false for every n other than 0 (negative values
    included). *)
Theorem numeric_sentinel_is_zero :
  (is_sentinel i64_zero = true /\ forall n : i64, n <> i64_zero -> is_sentinel n = false) /\
  (is_sentinel i32_zero = true /\ forall n : i32, n <> i32_zero -> is_sentinel n = false) /\
  (is_sentinel i16_zero = true /\ forall n : i16, n <> i16_zero -> is_sentinel n = false) /\
  (is_sentinel u64_zero = true /\ forall n : u64, n <> u64_zero -> is_sentinel n = false) /\
  (is_sentinel u32_zero = true /\ forall n : u32, n <> u32_zero -> is_sentinel n = false).
Proof.
  repeat split; intros n; apply int_not_sentinel.
Qed.

Lemma numeric_sentinel_is_zero_witness :
  i64_of_Z (-1) <> i64_zero /\ is_sentinel (i64_of_Z (-1)) = false.
Proof.
  split.
  - intros H. apply (f_equal ival) in H. vm_compute in H. discriminate H.
  - apply (proj2 (proj1 numeric_sentinel_is_zero)).
    intros H. apply (f_equal ival) in H. vm_compute in H. discriminate H.
Defined.




(** C10: for every implementation the crate provides, sentinel() is the
    type's Default value: 0 for the integers, "" for String, None for
    Option<T>. *)
Theorem sentinel_is_default :
  (sentinel : i64) = default /\ ival (sentinel : i64) = 0 /\
  (sentinel : i32) = default /\ ival (sentinel : i32) = 0 /\
  (sentinel : i16) = default /\ ival (sentinel : i16) = 0 /\
  (sentinel : u64) = default /\ ival (sentinel : u64) = 0 /\
  (sentinel : u32) = default /\ ival (sentinel : u32) = 0 /\
  (sentinel : string) = default /\ (sentinel : string) = EmptyString /\
  (forall (T : Type) (ST : Sentinel T), (sentinel : option T) = default /\
                                        (sentinel : option T) = None).
Proof. repeat split. Qed.

(* ========================================================================= *)
(** ** The resolution engine: theorems *)

Section EngineFacts.

Context {K : Type} `{SK : Sentinel K}.
Local Abbreviation field := (@field K).
Local Abbreviation factory := (@factory K).
Variables (Row DB Err : Type).
Variable get_column : Row -> string -> K.
Variable insert : string -> list field -> DB -> DB * (Err + Row).
Variable default_factory : string -> factory.

Local Notation "x <- m ;; k" := (bind m (fun x => k))
  (at level 61, m at next level, right associativity).
Local Abbreviation create := (create Row DB Err get_column insert default_factory).
Local Abbreviation resolve_fields := (resolve_fields Row DB Err get_column default_factory).
Local Abbreviation insert_m := (insert_m Row DB Err insert).
Local Abbreviation cycle_edge := (cycle_edge default_factory).

Lemma create_S n f db :
  create (S n) f db =
  (fs' <- resolve_fields (create n) (ffields f) ;; insert_m (fentity f) fs') db.
Proof. reflexivity. Qed.

Lemma bind_none {A B : Type} (m : M DB Err A) (k : A -> M DB Err B) db :
  m db = None -> bind m k db = None.
Proof. intros Hm. unfold bind. rewrite Hm. reflexivity. Qed.

(** A successful create returns what the backend's insert returned. *)
Lemma create_success_from_insert n f d d' r :
  create n f d = Some (d', inr r) ->
  exists e fs d0, insert e fs d0 = (d', inr r).
Proof.
  destruct n as [| n]; simpl; [discriminate |].
  unfold bind. destruct (resolve_fields _ _ d) as [[d1 [e | fs]] |]; try discriminate.
  unfold insert_m. intros H. injection H as H. eauto.
Qed.

(** The errors of the field resolution are errors of the child creates. *)
Lemma resolve_fields_error (cc : factory -> M DB Err Row)
  (P : Err -> Prop) :
  (forall f d d' e, cc f d = Some (d', inl e) -> P e) ->
  forall fs d d' e, resolve_fields cc fs d = Some (d', inl e) -> P e.
Proof.
  intros Hcc fs. induction fs as [| f fs IH]; intros d d' e; simpl.
  - discriminate.
  - unfold bind at 1.
    destruct (resolve_field Row DB Err get_column default_factory cc f d)
      as [[d1 [e1 | f']] |] eqn:Hf.
    + intros H. injection H as <- <-.
      unfold resolve_field in Hf. destruct (fk f) as [a |]; [| discriminate].
      destruct (fk_no_default a); [discriminate |].
      destruct (is_sentinel (fval f)); [| discriminate].
      unfold bind in Hf.
      destruct (cc _ d) as [[d2 [e2 | r]] |] eqn:Hc; try discriminate.
      injection Hf as <- <-. eauto.
    + unfold bind. destruct (resolve_fields cc fs d1) as [[d2 [e2 | fs']] |] eqn:Hr;
        try discriminate.
      intros H. injection H as <- <-. eauto.
    + discriminate.
Qed.

(** Every error create returns is an error the backend's insert returned. *)
Lemma create_error_from_insert n :
  forall f d d' e, create n f d = Some (d', inl e) ->
  exists en fs d0 d1, insert en fs d0 = (d1, inl e).
Proof.
  induction n as [| n IH]; intros f d d' e; simpl; [discriminate |].
  unfold bind. destruct (resolve_fields _ _ d) as [[d1 [e1 | fs]] |] eqn:Hr;
    try discriminate.
  - intros H. injection H as <- <-.
    exact (resolve_fields_error (create n) _ IH _ _ _ _ Hr).
  - unfold insert_m. intros H. injection H as H. eauto.
Qed.

(** C5: a foreign-key field left at its sentinel, without no_default, is
    replaced, before the insert, by the key column of the row the child
    factory's create returned (its default instance, created right after the
    preceding fields are resolved); and when the backend never assigns a
    sentinel key, that value is not the sentinel. *)
Theorem create_resolves_sentinel_fk n e pre f post a db :
  fk f = Some a -> fk_no_default a = false -> is_sentinel (fval f) = true ->
  (forall e' fs d d' r, insert e' fs d = (d', inr r) ->
     is_sentinel (get_column r (fk_column a)) = false) ->
  create (S n) (mk_factory e (pre ++ f :: post)) db =
    (x <- resolve_fields (create n) pre ;;
     r <- create n (default_factory (fk_factory a)) ;;
     y <- resolve_fields (create n) post ;;
     insert_m e (x ++ set_fval f (get_column r (fk_column a)) :: y)) db
  /\ (forall d d' r, create n (default_factory (fk_factory a)) d = Some (d', inr r) ->
        is_sentinel (get_column r (fk_column a)) = false).
Proof.
  intros Hfk Hnd Hs Hkeys. split.
  - rewrite create_S. cbn [ffields fentity].
    rewrite resolve_fields_app. apply bind_ext. intros x d. simpl.
    unfold resolve_field. rewrite Hfk, Hnd, Hs.
    rewrite !bind_assoc. apply bind_ext. intros r d1.
    rewrite bind_ret_l, bind_assoc. apply bind_ext. intros y d2.
    rewrite bind_ret_l. reflexivity.
  - intros d d' r Hc.
    destruct (create_success_from_insert _ _ _ _ _ Hc) as (e' & fs & d0 & Hi).
    exact (Hkeys _ _ _ _ _ Hi).
Qed.

(** C6: a foreign-key field holding a non-sentinel value is inserted
    unchanged, and between the resolution of the fields before it and of
    the fields after it no child create runs (the backend state passes
    through untouched). *)
Theorem create_keeps_explicit_fk n e pre f post a db :
  fk f = Some a -> is_sentinel (fval f) = false ->
  create (S n) (mk_factory e (pre ++ f :: post)) db =
    (x <- resolve_fields (create n) pre ;;
     y <- resolve_fields (create n) post ;;
     insert_m e (x ++ f :: y)) db.
Proof.
  intros Hfk Hs.
  rewrite create_S. cbn [ffields fentity].
  rewrite resolve_fields_app. apply bind_ext. intros x d. simpl.
  unfold resolve_field. rewrite Hfk, Hs.
  destruct (fk_no_default a); rewrite bind_assoc, bind_ret_l, bind_assoc;
    apply bind_ext; intros y d2; rewrite bind_ret_l; reflexivity.
Qed.

Lemma resolve_field_pass cc f db :
  needs_default f = false -> resolve_field Row DB Err get_column default_factory cc f db = ret f db.
Proof.
  unfold needs_default, resolve_field. intros H.
  destruct (fk f) as [a |]; [| reflexivity].
  destruct (fk_no_default a); [reflexivity |].
  simpl in H. rewrite H. reflexivity.
Qed.

Lemma resolve_fields_pass cc fs db :
  forallb (fun f => negb (needs_default f)) fs = true ->
  resolve_fields cc fs db = ret fs db.
Proof.
  revert db. induction fs as [| f fs IH]; intros db H; [reflexivity |].
  simpl in H. apply andb_true_iff in H as [Hf Hfs].
  apply negb_true_iff in Hf.
  simpl. unfold bind at 1. rewrite resolve_field_pass by exact Hf.
  simpl. unfold bind. rewrite IH by exact Hfs. reflexivity.
Qed.

Lemma cycle_diverges n : forall x y db,
  cycle_edge x y -> cycle_edge y x ->
  create n (default_factory x) db = None.
Proof.
  induction n as [| n IH]; intros x y db Hxy Hyx; [reflexivity |].
  destruct Hxy as (pre & f & a & post & Hfs & Hpre & Hfk & Hnd & Hs & Hy).
  rewrite create_S, Hfs, resolve_fields_app.
  unfold bind at 1. rewrite (resolve_fields_pass _ _ _ Hpre). unfold ret.
  apply bind_none. simpl. apply bind_none.
  unfold resolve_field. rewrite Hfk, Hnd, Hs, Hy. apply bind_none.
  exact (IH y x db Hyx (ex_intro _ pre (ex_intro _ f (ex_intro _ a (ex_intro _ post
    (conj Hfs (conj Hpre (conj Hfk (conj Hnd (conj Hs Hy)))))))))).
Qed.

(** C7 (amended): the engine has no recursion-depth guard and no error of
    its own: every error create returns is one the backend's insert
    returned; and when two default factories reference each other through
    foreign keys left at their sentinel without no_default, with no field
    before either key needing auto-creation, create on either never
    returns, at any depth. *)
Theorem create_has_no_depth_guard x y :
  cycle_edge x y -> cycle_edge y x ->
  (forall n db, create n (default_factory x) db = None /\
                create n (default_factory y) db = None) /\
  (forall n f d d' e, create n f d = Some (d', inl e) ->
     exists en fs d0 d1, insert en fs d0 = (d1, inl e)).
Proof.
  intros Hxy Hyx. split.
  - intros n db. split; eapply cycle_diverges; eauto.
  - intros n. apply create_error_from_insert.
Qed.

End EngineFacts.

(* ========================================================================= *)
(** ** The engine on the concrete backend *)

Lemma i64_of_Z_small (z : Z) : 0 <= z < 2^63 -> ival (i64_of_Z z) = z.
Proof.
  intros Hz. unfold i64_of_Z, wrap.
  change (ival (mk_int (wrap_val (-2^63) (2^63) z) (wrap_val_bound (-2^63) (2^63) z eq_refl)))
    with (wrap_val (-2^63) (2^63) z).
  unfold wrap_val. rewrite Z.mod_small; lia.
Qed.
(** The concrete backend never assigns the sentinel as an [id]. *)
Lemma demo_insert_keys_not_sentinel :
  forall e fs d d' r, Demo.insert e fs d = (d', inr r) ->
  is_sentinel (Demo.get_column r "id") = false.
Proof.
  intros e fs d d' r. unfold Demo.insert.
  destruct (Z.of_nat (List.length d) <? 2^62) eqn:E; [| discriminate].
  intros H. injection H as <- <-.
  apply Z.ltb_lt in E.
  assert (Hg : forall v rest, Demo.get_column (("id"%string, v) :: rest) "id" = v)
    by reflexivity.
  rewrite Hg. change ((ival (i64_of_Z (Z.of_nat (List.length d) + 1)) =? 0) = false).
  rewrite i64_of_Z_small by lia. apply Z.eqb_neq. lia.
Qed.

Lemma demo_cycle_AB : cycle_edge Demo.cyclic "AFactory" "BFactory".
Proof. exists [mk_field "id" i64_zero None]. do 3 eexists. repeat split; reflexivity. Qed.

Lemma demo_cycle_BA : cycle_edge Demo.cyclic "BFactory" "AFactory".
Proof. exists [mk_field "id" i64_zero None]. do 3 eexists. repeat split; reflexivity. Qed.

Lemma create_resolves_sentinel_fk_witness :
  (fk Demo.tenant_field = Some Demo.tenant_fk /\ fk_no_default Demo.tenant_fk = false /\
   is_sentinel (fval Demo.tenant_field) = true) /\
  (Demo.run 3 (mk_factory "User" ([Demo.user_pk] ++ Demo.tenant_field :: [])) [] =
    (x <- Demo.resolve 2 [Demo.user_pk] ;;
     r <- Demo.run 2 (Demo.schema "TenantFactory") ;;
     y <- Demo.resolve 2 [] ;;
     insert_m Demo.Row Demo.DB Demo.Err Demo.insert "User"
       (x ++ set_fval Demo.tenant_field (Demo.get_column r "id") :: y)) []
  /\ (forall d d' r, Demo.run 2 (Demo.schema "TenantFactory") d = Some (d', inr r) ->
        is_sentinel (Demo.get_column r "id") = false)).
Proof.
  split; [split; [reflexivity | split; reflexivity] |].
  exact (create_resolves_sentinel_fk Demo.Row Demo.DB Demo.Err Demo.get_column
           Demo.insert Demo.schema 2 "User" [Demo.user_pk] Demo.tenant_field []
           Demo.tenant_fk [] eq_refl eq_refl eq_refl demo_insert_keys_not_sentinel).
Defined.

Lemma create_keeps_explicit_fk_witness :
  (fk Demo.tenant_field7 = Some Demo.tenant_fk /\
   is_sentinel (fval Demo.tenant_field7) = false) /\
  Demo.run 3 (mk_factory "User" ([Demo.user_pk] ++ Demo.tenant_field7 :: [])) [] =
    (x <- Demo.resolve 2 [Demo.user_pk] ;;
     y <- Demo.resolve 2 [] ;;
     insert_m Demo.Row Demo.DB Demo.Err Demo.insert "User" (x ++ Demo.tenant_field7 :: y)) [].
Proof.
  split; [split; [reflexivity | vm_compute; reflexivity] |].
  apply (create_keeps_explicit_fk Demo.Row Demo.DB Demo.Err Demo.get_column
           Demo.insert Demo.schema 2 "User" [Demo.user_pk] Demo.tenant_field7 []
           Demo.tenant_fk []); [reflexivity | vm_compute; reflexivity].
Defined.

(** C7 (counterexample): with two default factories [A { id, b_id }] and
    [B { id, a_id }] referencing each other and no no_default, create reaches no outcome at any depth, so it never
    fails with a depth-exceeded error. *)
Lemma cyclic_defaults_never_return :
  ~ (exists n r, Demo.run_cyclic n (Demo.cyclic "AFactory") [] = Some r).
Proof.
  intros (n & r & H). unfold Demo.run_cyclic in H.
  rewrite (cycle_diverges Demo.Row Demo.DB Demo.Err Demo.get_column Demo.insert Demo.cyclic
             n "AFactory" "BFactory" [] demo_cycle_AB demo_cycle_BA)
    in H.
  discriminate H.
Qed.

Lemma create_has_no_depth_guard_witness :
  (cycle_edge Demo.cyclic "AFactory" "BFactory" /\
   cycle_edge Demo.cyclic "BFactory" "AFactory") /\
  ((forall n db, Demo.run_cyclic n (Demo.cyclic "AFactory") db = None /\
                 Demo.run_cyclic n (Demo.cyclic "BFactory") db = None) /\
   (forall n f d d' e, Demo.run_cyclic n f d = Some (d', inl e) ->
      exists en fs d0 d1, Demo.insert en fs d0 = (d1, inl e))).
Proof.
  split; [split; [exact demo_cycle_AB | exact demo_cycle_BA] |].
  exact (create_has_no_depth_guard Demo.Row Demo.DB Demo.Err Demo.get_column
           Demo.insert Demo.cyclic "AFactory" "BFactory" demo_cycle_AB demo_cycle_BA).
Defined.

(** Section 8 scenario: [UserFactory] with [tenant_id] left at the sentinel
    creates the tenant first (id 1) and inserts the user with
    [tenant_id = 1]; two rows are written. *)
Example scenario_tenant_auto_created :
  exists db' r, Demo.run 3 (Demo.schema "UserFactory") [] = Some (db', inr r) /\
    ival (Demo.get_column r "tenant_id") = 1 /\ List.length db' = 2%nat.
Proof. do 2 eexists. split; [vm_compute; reflexivity | vm_compute; split; reflexivity]. Qed.

(** Section 8 scenario: [tenant_id] pre-set to 7 is kept and no tenant row
    is written. *)
Example scenario_tenant_preset :
  exists db' r,
    Demo.run 3 (mk_factory "User" [Demo.user_pk; Demo.tenant_field7]) [] = Some (db', inr r) /\
    ival (Demo.get_column r "tenant_id") = 7 /\ List.length db' = 1%nat.
Proof. do 2 eexists. split; [vm_compute; reflexivity | vm_compute; split; reflexivity]. Qed.

(* ========================================================================= *)
(** ** Further properties of the Sentinel implementations *)

(** The [Option<T>] implementation keeps an exact sentinel exact up to one
    extra value: when [T]'s [is_sentinel] recognises exactly [sentinel()],
    [Option<T>]'s recognises exactly [None] and [Some(sentinel())]. *)
Theorem option_lifts_exact_sentinel (T : Type) `{ST : Sentinel T} :
  (forall x : T, is_sentinel x = true <-> x = sentinel) ->
  forall o : option T, is_sentinel o = true <-> o = None \/ o = Some sentinel.
Proof.
  intros Hx [x |]; simpl.
  - rewrite Hx. split.
    + intros ->. right. reflexivity.
    + intros [H | H]; [discriminate H | injection H as ->; reflexivity].
  - split; auto.
Qed.

Lemma option_lifts_exact_sentinel_witness :
  (forall x : i64, is_sentinel x = true <-> x = sentinel) /\
  (is_sentinel (Some (i64_of_Z 5)) = true <->
   Some (i64_of_Z 5) = None \/ Some (i64_of_Z 5) = Some sentinel).
Proof.
  split.
  - intros x. apply int_is_sentinel_iff.
  - apply (option_lifts_exact_sentinel i64). intros x. apply int_is_sentinel_iff.
Defined.

(** Nesting the [Option<T>] implementation: a value of [Option<Option<T>>]
    is a sentinel exactly when it is [None], [Some(None)], or
    [Some(Some(x))] with [x] a sentinel of [T]. *)
Theorem nested_option_sentinels (T : Type) `{ST : Sentinel T} (o : option (option T)) :
  is_sentinel o = true <->
  o = None \/ o = Some None \/ exists x, o = Some (Some x) /\ is_sentinel x = true.
Proof.
  destruct o as [[x |] |]; simpl; split.
  - intros H. right; right. exists x. auto.
  - intros [H | [H | (y & H & Hy)]]; try discriminate H.
    injection H as ->. exact Hy.
  - intros _. right; left. reflexivity.
  - intros _. reflexivity.
  - intros _. left. reflexivity.
  - intros _. reflexivity.
Qed.

(** The tests' [TestId] implementation (and the documented [UserId] one):
    [is_sentinel] holds exactly for [TestId(0)], and [Option<TestId>] is a
    sentinel exactly for [None] and [Some(TestId(0))]. *)
Theorem test_id_sentinel_exact :
  (forall t : TestId, is_sentinel t = true <-> t = sentinel) /\
  (forall o : option TestId, is_sentinel o = true <-> o = None \/ o = Some sentinel).
Proof.
  assert (Ht : forall t : TestId, is_sentinel t = true <-> t = sentinel).
  { intros [v]. cbn [is_sentinel Sentinel_TestId test_id].
    rewrite (@int_is_sentinel_iff (-2^63) (2^63) eq_refl v). split.
    - intros ->. reflexivity.
    - intros H. injection H as ->. reflexivity. }
  split; [exact Ht |].
  intros [t |].
  - change (is_sentinel (Some t)) with (is_sentinel t).
    rewrite Ht. split.
    + intros ->. right. reflexivity.
    + intros [H | H]; [discriminate H | injection H as ->; reflexivity].
  - simpl. split; auto.
Qed.

(* ========================================================================= *)
(** ** Further properties of the resolution engine *)

Section EngineExtras.

Context {K : Type} `{SK : Sentinel K}.
Local Abbreviation field := (@field K).
Local Abbreviation factory := (@factory K).
Variables (Row DB Err : Type).
Variable get_column : Row -> string -> K.
Variable insert : string -> list field -> DB -> DB * (Err + Row).
Variable default_factory : string -> factory.

Local Abbreviation create := (create Row DB Err get_column insert default_factory).
Local Abbreviation resolve_fields := (resolve_fields Row DB Err get_column default_factory).
Local Abbreviation insert_m := (insert_m Row DB Err insert).

(** [no_default]: a foreign-key field with the opt-out set is inserted
    unchanged, whatever its value (the sentinel included), and no child
    create runs for it. *)
Theorem create_keeps_opted_out_fk n e pre f post a db :
  fk f = Some a -> fk_no_default a = true ->
  create (S n) (mk_factory e (pre ++ f :: post)) db =
    (x <- resolve_fields (create n) pre ;;
     y <- resolve_fields (create n) post ;;
     insert_m e (x ++ f :: y)) db.
Proof.
  intros Hfk Hnd. rewrite create_S. cbn [ffields fentity].
  rewrite resolve_fields_app. apply bind_ext. intros x d. simpl.
  rewrite bind_assoc. unfold bind at 1.
  rewrite resolve_field_pass by (unfold needs_default; rewrite Hfk, Hnd; reflexivity).
  simpl. rewrite bind_assoc. apply bind_ext. intros y d2.
  rewrite bind_ret_l. reflexivity.
Qed.

(** A factory none of whose fields triggers auto-creation (no foreign keys,
    opted-out ones, or ones with explicit values) is inserted with its
    fields exactly as given, by one insert and no child create. *)
Theorem create_without_pending_fks n f db :
  forallb (fun g => negb (needs_default g)) (ffields f) = true ->
  create (S n) f db = Some (insert (fentity f) (ffields f) db).
Proof.
  intros H. rewrite create_S. unfold bind. rewrite resolve_fields_pass by exact H.
  reflexivity.
Qed.

(** The [?] after [build_with_fks]: when the child create of a field that
    needs a default fails, the parent create fails with that same error,
    the backend state left by the child kept, and the parent's insert never
    runs. *)
Theorem create_propagates_child_error n e pre f post a db x d d' err :
  fk f = Some a -> fk_no_default a = false -> is_sentinel (fval f) = true ->
  resolve_fields (create n) pre db = Some (d, inr x) ->
  create n (default_factory (fk_factory a)) d = Some (d', inl err) ->
  create (S n) (mk_factory e (pre ++ f :: post)) db = Some (d', inl err).
Proof.
  intros Hfk Hnd Hs Hpre Hc. rewrite create_S. cbn [ffields fentity].
  rewrite resolve_fields_app. unfold bind at 1. rewrite Hpre.
  simpl. unfold bind at 1. unfold bind at 1.
  unfold resolve_field at 1.
  rewrite Hfk, Hnd, Hs. unfold bind at 1. rewrite Hc. reflexivity.
Qed.

(** The resolved instance keeps the factory's fields, in order, with their
    names and annotations; only the value of a field that needs a default
    can change. *)
Theorem resolve_fields_shape cc fs db d' fs' :
  resolve_fields cc fs db = Some (d', inr fs') ->
  Forall2 (fun g g' => fname g' = fname g /\ fk g' = fk g /\
                       (needs_default g = false -> fval g' = fval g)) fs fs'.
Proof.
  revert db fs'. induction fs as [| g fs IH]; intros db fs' H.
  - simpl in H. injection H as H. subst fs'. constructor.
  - simpl in H. unfold bind at 1 in H.
    destruct (resolve_field Row DB Err get_column default_factory cc g db) as [[d1 [e1 | g']] |] eqn:Hg; try discriminate H.
    unfold bind at 1 in H.
    destruct (resolve_fields cc fs d1) as [[d2 [e2 | gs']] |] eqn:Hgs; try discriminate H.
    injection H as <- <-. constructor; [| exact (IH _ _ Hgs)].
    unfold resolve_field in Hg. unfold needs_default.
    destruct (fk g) as [a |] eqn:Hfk.
    + destruct (fk_no_default a).
      * injection Hg as <- <-. auto.
      * destruct (is_sentinel (fval g)).
        -- unfold bind in Hg. destruct (cc _ db) as [[d3 [e3 | r]] |]; try discriminate Hg.
           injection Hg as <- <-. simpl. rewrite Hfk. split; [reflexivity |].
           split; [reflexivity | discriminate].
        -- injection Hg as <- <-. auto.
    + injection Hg as <- <-. auto.
Qed.

End EngineExtras.

Lemma create_keeps_opted_out_fk_witness :
  (fk Demo.tenant_field_opt = Some (mk_fk "Tenant" "id" "TenantFactory" true) /\
   fk_no_default (mk_fk "Tenant" "id" "TenantFactory" true) = true) /\
  Demo.run 3 (mk_factory "User" ([Demo.user_pk] ++ Demo.tenant_field_opt :: [])) [] =
    (x <- Demo.resolve 2 [Demo.user_pk] ;;
     y <- Demo.resolve 2 [] ;;
     insert_m Demo.Row Demo.DB Demo.Err Demo.insert "User"
       (x ++ Demo.tenant_field_opt :: y)) [].
Proof.
  split; [split; reflexivity |].
  apply (create_keeps_opted_out_fk Demo.Row Demo.DB Demo.Err Demo.get_column
           Demo.insert Demo.schema 2 "User" [Demo.user_pk] Demo.tenant_field_opt []
           (mk_fk "Tenant" "id" "TenantFactory" true) []); reflexivity.
Defined.

Lemma create_without_pending_fks_witness :
  forallb (fun g => negb (needs_default g)) [Demo.user_pk; Demo.tenant_field7] = true /\
  Demo.run 3 (mk_factory "User" [Demo.user_pk; Demo.tenant_field7]) [] =
    Some (Demo.insert "User" [Demo.user_pk; Demo.tenant_field7] []).
Proof.
  split; [vm_compute; reflexivity |].
  apply (create_without_pending_fks Demo.Row Demo.DB Demo.Err Demo.get_column
           Demo.insert Demo.schema 2 (mk_factory "User" [Demo.user_pk; Demo.tenant_field7]) []).
  vm_compute. reflexivity.
Defined.

Lemma create_propagates_child_error_witness :
  (Demo.resolve_no_tenant 2 [Demo.user_pk] [] = Some ([], inr [Demo.user_pk]) /\
   Demo.run_no_tenant 2 (Demo.schema "TenantFactory") [] =
     Some ([], inl "tenant insert rejected"%string)) /\
  Demo.run_no_tenant 3 (mk_factory "User" ([Demo.user_pk] ++ Demo.tenant_field :: [])) [] =
    Some ([], inl "tenant insert rejected"%string).
Proof.
  split; [split; vm_compute; reflexivity |].
  apply (create_propagates_child_error Demo.Row Demo.DB Demo.Err Demo.get_column
           Demo.insert_no_tenant Demo.schema 2 "User" [Demo.user_pk] Demo.tenant_field []
           Demo.tenant_fk [] [Demo.user_pk] [] [] "tenant insert rejected"%string);
    try reflexivity; vm_compute; reflexivity.
Defined.

Lemma resolve_fields_shape_witness :
  Demo.resolve 2 [Demo.user_pk; Demo.tenant_field] [] =
    Some ([("Tenant"%string, [("id"%string, i64_of_Z 1)])],
          inr [Demo.user_pk; set_fval Demo.tenant_field (i64_of_Z 1)]) /\
  Forall2 (fun g g' => fname g' = fname g /\ fk g' = fk g /\
                       (needs_default g = false -> fval g' = fval g))
    [Demo.user_pk; Demo.tenant_field] [Demo.user_pk; set_fval Demo.tenant_field (i64_of_Z 1)].
Proof.
  assert (H : Demo.resolve 2 [Demo.user_pk; Demo.tenant_field] [] =
    Some ([("Tenant"%string, [("id"%string, i64_of_Z 1)])],
          inr [Demo.user_pk; set_fval Demo.tenant_field (i64_of_Z 1)]))
    by (vm_compute; reflexivity).
  split; [exact H |].
  exact (resolve_fields_shape Demo.Row Demo.DB Demo.Err Demo.get_column Demo.schema _ _ _ _ _ H).
Defined.
